(** * OneClassMetricLearning: grid evaluation, model factory, MNIST driver

    A shallow embedding of the two entry points of the repository:

    - [legacy_notebooks/run_toy_2d_baselines.ipynb]: [get_sk_contour],
      [plot_sk_contour], [get_sk_model] and the two cells that define
      [train_plot_sk_model];
    - [experiments/run_mnist.sh]: the class/repeat loop around the
      training script.

    Python exceptions are values of [exn] carried by the [result] monad.
    numpy arrays are flat buffers with a shape.  The arithmetic of the
    arrays is kept behind the [Scalar] interface: the structural results
    hold for every implementation of it, the results about the values of
    the coordinates are stated for binary64 ([float64_scalar]), the
    arithmetic numpy uses, and the figures are written with rationals
    ([Q_scalar]), whose values play no part in what is proved of them. *)

From Stdlib Require Import QArith Lqa Floats.
From stdpp Require Import base option list strings gmap pretty.

Set Default Proof Using "Type".
Local Open Scope string_scope.
Local Open Scope list_scope.
Local Open Scope stdpp_scope.

(** ** Python exceptions *)

Inductive exn : Type :=
  | IndexError
  | ValueError
  | NameError (var : string)
  | UnboundLocalError (var : string)
  | ExternalError (msg : string).

Inductive result (A : Type) : Type :=
  | Ok (a : A)
  | Raise (e : exn).
Arguments Ok {A} a.
Arguments Raise {A} e.

#[global] Instance result_ret : MRet result := fun A a => Ok a.
#[global] Instance result_bind : MBind result := fun A B f m =>
  match m with
  | Ok a => f a
  | Raise e => Raise e
  end.

(** [l[i]] on a Python list, for a non-negative index. *)
Definition getitem {A} (l : list A) (i : nat) : result A :=
  match l !! i with
  | Some a => Ok a
  | None => Raise IndexError
  end.

(** ** numpy *)

(** The arithmetic numpy performs on the array's dtype. *)
Class Scalar (T : Type) : Type := {
  of_nat : nat -> T;
  add : T -> T -> T;
  subtract : T -> T -> T;
  multiply : T -> T -> T;
  divide : T -> T -> T;
  is_zero : T -> bool
}.

(** A two-dimensional ndarray: its shape and its buffer in row-major
    (C) order. *)
Record ndarray (A : Type) : Type := mk_ndarray {
  shape : nat * nat;
  data : list A
}.
Arguments mk_ndarray {A} shape data.
Arguments shape {A} n.
Arguments data {A} n.

(** [arr[i, j]]. *)
Definition item {A} (arr : ndarray A) (i j : nat) : option A :=
  if decide (i < fst (shape arr) ∧ j < snd (shape arr))
  then data arr !! (i * snd (shape arr) + j)
  else None.

Section Numpy.
Context {T : Type} `{Scalar T}.

(** [np.arange(0, num)] in the floating dtype. *)
Definition arange (num : nat) : list T := of_nat <$> seq 0 num.

(** [np.linspace(start, stop, num)] with [endpoint=True], for [num ≥ 0]
    (numpy refuses a negative [num]).  Python computes [div = num - 1] on
    integers; [div] is only used when it is positive, so the truncated
    subtraction of [nat] changes nothing. *)
Definition linspace (start stop : T) (num : nat) : list T :=
  let div := num - 1 in
  let y := arange num in
  let delta := subtract stop start in
  let y :=
    if decide (0 < div) then
      let step := divide delta (of_nat div) in
      if is_zero step
      then (fun v => multiply (divide v (of_nat div)) delta) <$> y
      else (fun v => multiply v step) <$> y
    else (fun v => multiply v delta) <$> y in
  let y := (fun v => add v start) <$> y in
  if decide (1 < num) then <[length y - 1 := stop]> y else y.

(** [np.meshgrid(x, y)] with the default [indexing='xy']: both results
    have shape [(len(y), len(x))], [X[i, j] = x[j]] and [Y[i, j] = y[i]]. *)
Definition meshgrid (x y : list T) : ndarray T * ndarray T :=
  (mk_ndarray (length y, length x) (mjoin (replicate (length y) x)),
   mk_ndarray (length y, length x) (y ≫= λ v, replicate (length x) v)).

(** [arr.flatten()]. *)
Definition flatten {A} (arr : ndarray A) : list A := data arr.

(** [np.stack([u, v], axis=-1)] on two one-dimensional arrays: an array
    of shape [(n, 2)], kept as the list of its rows. *)
Definition stack (u v : list T) : result (list (T * T)) :=
  if decide (length u = length v) then Ok (zip u v) else Raise ValueError.

(** [z.reshape(shp)] on a one-dimensional array. *)
Definition reshape {A} (z : list A) (shp : nat * nat) : result (ndarray A) :=
  if decide (length z = fst shp * snd shp)
  then Ok (mk_ndarray shp z)
  else Raise ValueError.

(** A fitted scikit-learn detector, seen through its score of one
    sample; [decision_function] scores the rows of a batch one by one. *)
Record fitted_model : Type := { score : T * T -> T }.

Definition decision_function (model : fitted_model)
    (X : list (T * T)) : list T :=
  score model <$> X.

(** ** Notebook cell 1: [get_sk_contour] *)

Definition get_sk_contour (model : fitted_model) (domain : list T)
    (resolution : nat)
  : result (ndarray T * list T * list T * list (T * T)) :=
  xmin ← getitem domain 0;
  xmax ← getitem domain 1;
  ymin ← getitem domain 0;
  ymax ← getitem domain 1;
  let x_coords := linspace xmin xmax resolution in
  let y_coords := linspace ymin ymax resolution in
  let '(x_grid, y_grid) := meshgrid x_coords y_coords in
  grid ← stack (flatten x_grid) (flatten y_grid);
  let z_grid := decision_function model grid in
  z_grid ← reshape z_grid (shape x_grid);
  mret (z_grid, x_coords, y_coords, grid).

End Numpy.
Arguments fitted_model T : clear implicits.

(** Exact rational arithmetic as the scalar type, every result in lowest
    terms. *)
#[global] Instance Q_scalar : Scalar Q := {
  of_nat n := inject_Z (Z.of_nat n);
  add u v := Qred (u + v);
  subtract u v := Qred (u - v);
  multiply u v := Qred (u * v);
  divide u v := Qred (u / v);
  is_zero q := Qeq_bool q 0
}.

(** binary64, numpy's [float64].  [np.arange] holds the nearest float of
    each index, which is what [of_uint63] gives for the indices of any
    array that fits in memory. *)
#[global] Instance float64_scalar : Scalar float := {
  of_nat n := PrimFloat.of_uint63 (Uint63.of_Z (Z.of_nat n));
  add := PrimFloat.add;
  subtract := PrimFloat.sub;
  multiply := PrimFloat.mul;
  divide := PrimFloat.div;
  is_zero x := PrimFloat.eqb x 0%float
}.

(** ** scikit-learn estimators, by constructor and keyword arguments *)

Inductive sk_model : Type :=
  | IsolationForest (contamination : Q)
  | OneClassSVM (nu : Q) (kernel : string) (gamma : string).

(** ** plotly figures *)

Record marker : Type := { size : Q; color : string }.

Inductive plot_trace : Type :=
  | Contour (z : ndarray Q) (x y : list Q) (ncontours : nat)
  | Scatter (x y : list Q) (mode : string) (mk : marker).

Record Figure : Type := {
  fig_rows : nat;
  fig_cols : nat;
  fig_shared_yaxes : bool;
  fig_data : list (plot_trace * nat * nat);
  fig_layout : list (string * string)
}.

(** [make_subplots(rows=..., cols=..., shared_yaxes=...)]. *)
Definition make_subplots (rows cols : nat) (shared_yaxes : bool) : Figure :=
  {| fig_rows := rows; fig_cols := cols; fig_shared_yaxes := shared_yaxes;
     fig_data := []; fig_layout := [] |}.

(** [fig.add_trace(trace, row=row, col=col)]: plotly appends the trace to
    the figure's data and refuses a cell outside the subplot grid. *)
Definition add_trace (fig : Figure) (t : plot_trace) (row col : nat)
  : result Figure :=
  if decide (1 ≤ row ≤ fig_rows fig ∧ 1 ≤ col ≤ fig_cols fig)%nat
  then Ok {| fig_rows := fig_rows fig; fig_cols := fig_cols fig;
             fig_shared_yaxes := fig_shared_yaxes fig;
             fig_data := fig_data fig ++ [(t, row, col)];
             fig_layout := fig_layout fig |}
  else Raise (ExternalError "The (row, col) pair sent is out of range").

(** [fig.update_layout(...)], as the list of the settings made. *)
Definition update_layout (fig : Figure) (kv : list (string * string))
  : Figure :=
  {| fig_rows := fig_rows fig; fig_cols := fig_cols fig;
     fig_shared_yaxes := fig_shared_yaxes fig;
     fig_data := fig_data fig;
     fig_layout := fig_layout fig ++ kv |}.

(** [fig.update_yaxes(..., row=row, col=col)]: the settings go to the y
    axis of that subplot. *)
Definition update_yaxes (fig : Figure) (kv : list (string * string))
    (row col : nat) : Figure :=
  update_layout fig
    ((λ p, ("yaxis[" +:+ pretty row +:+ "," +:+ pretty col +:+ "]."
            +:+ p.1, p.2)) <$> kv).

(** ** What the notebook uses from outside

    [config] is referenced by the notebook and defined nowhere in it;
    [load_toy_2d] and [default_process] come from [ocml.datasets], and
    [fit] from scikit-learn.  Data generation and fitting draw random
    numbers, so they run in the state [World]. *)
Module Config.
Record t : Type := {
  dataset_name : string;
  num_pts : nat;
  noise : Q;
  domain : list Q
}.
End Config.

Class Ambient : Type := {
  World : Type;
  RawX : Type;
  RawY : Type;
  Labels : Type;
  config : Config.t;
  load_toy_2d : string -> nat -> Q -> World -> result (RawX * RawY) * World;
  default_process :
    RawX -> RawY -> World -> result (list (Q * Q) * Labels) * World;
  fit :
    sk_model -> list (Q * Q) -> Labels -> World ->
    result (fitted_model Q) * World
}.

(** Computations that may raise and that thread the [World]. *)
Definition py `{Ambient} (A : Type) : Type := World -> result A * World.

#[global] Instance py_ret `{Ambient} : MRet py := fun A a w => (Ok a, w).
#[global] Instance py_bind `{Ambient} : MBind py := fun A B f m w =>
  match m w with
  | (Ok a, w') => f a w'
  | (Raise e, w') => (Raise e, w')
  end.

Definition lift `{Ambient} {A} (r : result A) : py A := fun w => (r, w).

(** ** Notebook cell 1, continued: [plot_sk_contour] *)

Definition plot_sk_contour `{Ambient} (model : fitted_model Q)
    (X : list (Q * Q)) (y : Labels) (fig : Figure) (col : nat)
    (domain : option (list Q)) : result Figure :=
  let domain :=
    match domain with
    | None => Config.domain config
    | Some d => d
    end in
  '(z_grid, x_coords, y_coords, grid) ← get_sk_contour model domain 300;
  fig ← add_trace fig (Contour z_grid x_coords y_coords 20) 1 col;
  fig ← add_trace fig
          (Scatter (fst <$> X) (snd <$> X) "markers"
                   {| size := 1.5; color := "black" |}) 1 col;
  mret fig.

(** ** Notebook cell 2: [get_sk_model]

    The local [sk_model] is unbound until one of the two branches assigns
    it; reading an unbound local raises [UnboundLocalError]. *)
Definition get_sk_model (sk_model_name : string) : result sk_model :=
  let outliers_fraction := 0.05%Q in
  let sk_model : option sk_model :=
    if String.eqb sk_model_name "if" then
      Some (IsolationForest outliers_fraction)
    else if String.eqb sk_model_name "ocsvm" then
      Some (OneClassSVM outliers_fraction "rbf" "scale")
    else None in
  match sk_model with
  | Some m => Ok m
  | None => Raise (UnboundLocalError "sk_model")
  end.

(** ** Notebook cells 3 and 4: the two definitions of
    [train_plot_sk_model]

    The Python function returns [None] and changes [fig] in place; here it
    returns the changed figure. *)
Module Cell3.
Definition train_plot_sk_model `{Ambient} (fig : Figure) (col : nat)
    (ds_name sk_model_name : string) (domain : option (list Q))
  : py Figure :=
  '(X, y) ← load_toy_2d (Config.dataset_name config)
              (Config.num_pts config) (Config.noise config);
  '(X, y) ← default_process X y;
  sk_model ← lift (get_sk_model sk_model_name);
  sk_model ← fit sk_model X y;
  lift (plot_sk_contour sk_model X y fig col domain).
End Cell3.

Module Cell4.
Definition train_plot_sk_model `{Ambient} (fig : Figure) (col : nat)
    (ds_name sk_model_name : string) (domain : option (list Q))
  : py Figure :=
  '(X, y) ← load_toy_2d (Config.dataset_name config)
              (Config.num_pts config) (Config.noise config);
  '(X, y) ← default_process X y;
  sk_model ← lift (get_sk_model sk_model_name);
  sk_model ← fit sk_model X y;
  lift (plot_sk_contour sk_model X y fig col domain).
End Cell4.

(** ** The notebook's global namespace and its last cell

    Running a cell that holds a [def] binds the name in the globals,
    replacing an earlier binding. *)
Definition train_fn `{Ambient} : Type :=
  Figure -> nat -> string -> string -> option (list Q) -> py Figure.

Definition run_cell3 `{Ambient} (globals : gmap string train_fn)
  : gmap string train_fn :=
  <["train_plot_sk_model" := Cell3.train_plot_sk_model]> globals.

Definition run_cell4 `{Ambient} (globals : gmap string train_fn)
  : gmap string train_fn :=
  <["train_plot_sk_model" := Cell4.train_plot_sk_model]> globals.

Definition run_cell5 `{Ambient} (globals : gmap string train_fn)
  : py Figure :=
  let num_cols := 1 in
  let fig := make_subplots 1 num_cols true in
  let sk_model_name := "ocsvm" in
  train ← lift (match globals !! "train_plot_sk_model" with
                | Some f => Ok f
                | None => Raise (NameError "train_plot_sk_model")
                end);
  fig ← train fig 1 (Config.dataset_name config) sk_model_name
          (Some [(-3)%Q; 3%Q]);
  let width := num_cols * 500 in
  let fig := update_layout fig
    [("autosize", "False"); ("width", pretty width); ("height", "500");
     ("showlegend", "False"); ("barmode", "overlay")] in
  let fig := update_yaxes fig [("scaleanchor", "x"); ("scaleratio", "1")]
               1 1 in
  mret fig.

(** ** [experiments/run_mnist.sh]

    The shell keeps the list of what it has printed and run, the status
    [$?] of the last command and its [errexit] option, which only
    [set -e] would turn on.  [None] as the value of a step means that the
    shell has exited. *)

Record command : Type := {
  cmd_env : gmap string string;
  cmd_argv : list string
}.

Inductive event : Type :=
  | Echo (line : string)
  | Exec (c : command).

Record shell : Type := {
  sh_trace : list event;
  sh_status : Z;
  sh_errexit : bool
}.

Definition sh (A : Type) : Type := shell -> option A * shell.

#[global] Instance sh_ret : MRet sh := fun A a s => (Some a, s).
#[global] Instance sh_bind : MBind sh := fun A B f m s =>
  match m s with
  | (Some a, s') => f a s'
  | (None, s') => (None, s')
  end.

(** [for v in words; do body; done].  The word of the turn is the argument
    of [body]; that bash also keeps it in the shell variable [v] is not
    recorded in the state. *)
Fixpoint for_in (words : list string) (body : string -> sh unit) : sh unit :=
  match words with
  | [] => mret ()
  | v :: words => body v;; for_in words body
  end.

(** The output of [seq first last], split into words. *)
Definition seq_words (first last : Z) : list string :=
  pretty <$> seqZ first (last - first + 1).

Section Driver.
(** The exit status of an external command, which may depend on all
    that happened before it. *)
Variable outcome : list event -> command -> Z.
(** The environment the script was started in, and its [$0]. *)
Variable environ : gmap string string.
Variable script : string.

(** [echo line]. *)
Definition echo (line : string) : sh unit := fun s =>
  (Some (),
   {| sh_trace := sh_trace s ++ [Echo line]; sh_status := 0;
      sh_errexit := sh_errexit s |}).

(** [VAR=value ... argv]: the command runs in the shell's environment
    changed by the assignments; the shell goes on to the next command
    unless [errexit] is on and the status is not zero.  What bash itself
    adds to the environment of a child ([_], [SHLVL], [PWD]) and the loop
    variables, which reach a child only when the caller had exported
    variables of those names, are not part of [cmd_env]: of the
    environment of a run, the statements below use the variables that its
    command line assigns. *)
Definition exec (assignments : list (string * string))
    (argv : list string) : sh unit := fun s =>
  let c := {| cmd_env := foldl (fun m kv => <[kv.1 := kv.2]> m)
                           environ assignments;
              cmd_argv := argv |} in
  let rc := outcome (sh_trace s) c in
  let s' := {| sh_trace := sh_trace s ++ [Exec c]; sh_status := rc;
               sh_errexit := sh_errexit s |} in
  if sh_errexit s && negb (rc =? 0)%Z then (None, s') else (Some (), s').

(** The script, for [$1 = repeats] and [$2 = tag]. *)
Definition run_mnist (repeats : Z) (tag : string) : sh unit :=
  exec [] ["jupyter"; "nbconvert"; "--to=script";
           "--output-dir=experiments/"; "./run_mnist.ipynb"];;
  for_in ["0"; "1"; "2"; "3"; "5"; "6"; "7"; "9"] (fun c =>
    echo ("Run experiments for class " +:+ c);;
    for_in (seq_words 1 repeats) (fun i =>
      echo ("Run experiment n°" +:+ i +:+ " from script " +:+ script
            +:+ " with group mnist" +:+ c +:+ "_" +:+ tag
            +:+ " in class " +:+ c);;
      exec [("PLOTLY_RENDERER", "png"); ("DATASET_NAME", "mnist");
            ("IN_CLASS", c); ("WANDB_GROUP", "mnist" +:+ c +:+ "_" +:+ tag)]
           ["python"; "experiments/run_mnist.py"])).

(** A script starts with status 0 and [errexit] off. *)
Definition start : shell :=
  {| sh_trace := []; sh_status := 0; sh_errexit := false |}.

End Driver.

(** The runs of the training script among the events of a trace. *)
Definition invocations (tr : list event) : list command :=
  omap (fun e =>
          match e with
          | Exec c =>
              if decide (cmd_argv c = ["python"; "experiments/run_mnist.py"])
              then Some c else None
          | Echo _ => None
          end) tr.

(** ** Vocabulary of the statements *)

(** The points of the grid in the order of the flat buffer: y outer,
    x inner. *)
Definition flat_grid {T} (x y : list T) : list (T * T) :=
  zip (mjoin (replicate (length y) x)) (y ≫= λ v, replicate (length x) v).

(** A binary64 number that is neither infinite nor NaN, and one that is
    not zero either. *)
Definition finite (x : float) : bool :=
  match Prim2SF x with
  | S754_finite _ _ _ | S754_zero _ => true
  | _ => false
  end.





(** The fixed list of target classes of the driver. *)
Definition classes : list string :=
  ["0"; "1"; "2"; "3"; "5"; "6"; "7"; "9"].

(** The (class, repeat index) pairs in the order the loops visit them. *)
Definition loop_pairs (repeats : Z) : list (string * string) :=
  c ← classes; i ← seq_words 1 repeats; [(c, i)].

(** The run of the training script for class [c]. *)
Definition training_command (environ : gmap string string)
    (c tag : string) : command :=
  {| cmd_env :=
       <["WANDB_GROUP" := "mnist" +:+ c +:+ "_" +:+ tag]>
         (<["IN_CLASS" := c]>
            (<["DATASET_NAME" := "mnist"]>
               (<["PLOTLY_RENDERER" := "png"]> environ)));
     cmd_argv := ["python"; "experiments/run_mnist.py"] |}.

Definition nbconvert_command (environ : gmap string string) : command :=
  {| cmd_env := environ;
     cmd_argv := ["jupyter"; "nbconvert"; "--to=script";
                  "--output-dir=experiments/"; "./run_mnist.ipynb"] |}.

(** Everything the script prints and runs, in order. *)
Definition script_trace (environ : gmap string string) (script : string)
    (repeats : Z) (tag : string) : list event :=
  Exec (nbconvert_command environ) ::
  (c ← classes;
   Echo ("Run experiments for class " +:+ c) ::
   (i ← seq_words 1 repeats;
    [Echo ("Run experiment n°" +:+ i +:+ " from script " +:+ script
           +:+ " with group mnist" +:+ c +:+ "_" +:+ tag
           +:+ " in class " +:+ c);
     Exec (training_command environ c tag)])).

(** The environments of the commands tell the pairs apart: each pair is
    a function of the environment of its command. *)
Definition env_reflects_pairs (cmds : list command)
    (pairs : list (string * string)) : Prop :=
  ∃ decode : gmap string string → string * string,
    (λ c, decode (cmd_env c)) <$> cmds = pairs.

(** A step of the shell that always goes on and appends [out] to the
    trace, as long as [errexit] is off. *)
Definition emits (m : sh unit) (out : list event) : Prop :=
  ∀ s, sh_errexit s = false →
    ∃ s', m s = (Some (), s') ∧ sh_errexit s' = false ∧
          sh_trace s' = (sh_trace s ++ out)%list.

(** A step of the shell that always goes on and keeps the property [I] of
    the shell, as long as [errexit] is off. *)
Definition keeps (I : shell → Prop) (m : sh unit) : Prop :=
  ∀ s, sh_errexit s = false → I s →
    ∃ s', m s = (Some (), s') ∧ sh_errexit s' = false ∧ I s'.

(** [$?] is the status of the last thing the shell did: that of the last
    command it ran, given what came before it, or 0 after an [echo] and at
    the start. *)
Definition status_reported (outcome : list event → command → Z)
    (s : shell) : Prop :=
  match last (sh_trace s) with
  | Some (Exec c) => sh_status s = outcome (removelast (sh_trace s)) c
  | Some (Echo _) | None => sh_status s = 0%Z
  end.

(** An instance of what the notebook takes from outside, for the worked
    examples: a loader of two points that counts its calls, a processing
    step that changes nothing, and a fit that returns the first coordinate
    as the score. *)
Definition sample_ambient : Ambient := {|
  World := nat;
  RawX := list (Q * Q);
  RawY := list nat;
  Labels := list nat;
  config := {| Config.dataset_name := "moons"; Config.num_pts := 2;
               Config.noise := 0; Config.domain := [(-1)%Q; 1%Q] |};
  load_toy_2d := λ _ _ _ w, (Ok ([(0, 0); (1, 1)]%Q, [0; 1]), S w);
  default_process := λ X y w, (Ok (X, y), w);
  fit := λ _ _ _ w, (Ok {| score := λ p : Q * Q, p.1 |}, S w)
|}.

(** ** Facts about the grid that hold for every scalar arithmetic *)

Section NumpyFacts.
Context {T : Type} `{Scalar T}.
Implicit Types (x y : list T) (a b : T) (model : fitted_model T).

Lemma length_arange num : length (arange num) = num.
Proof. unfold arange. by rewrite length_fmap, length_seq. Qed.

Lemma length_linspace a b num : length (linspace a b num) = num.
Proof.
  unfold linspace.
  repeat case_decide; repeat case_match;
    rewrite ?length_insert, !length_fmap; apply length_arange.
Qed.

(** The last sample is the assigned [stop], whatever the arithmetic. *)
Lemma linspace_last a b num :
  1 < num → linspace a b num !! (num - 1) = Some b.
Proof.
  intros Hnum. unfold linspace.
  rewrite (decide_True (P := 1 < num)) by done.
  set (y := _ <$> _). assert (length y = num) as Hy.
  { subst y. repeat case_decide; repeat case_match;
      rewrite !length_fmap; apply length_arange. }
  rewrite Hy. apply list_lookup_insert_eq. lia.
Qed.

Lemma lookup_tile x n i j :
  j < n → i < length x →
  mjoin (replicate n x) !! (j * length x + i) = x !! i.
Proof.
  intros Hj Hi. destruct (lookup_lt_is_Some_2 x i Hi) as [v Hv].
  rewrite Hv. apply (join_lookup_Some_same_length' (length x)); [|done|].
  - by apply Forall_replicate.
  - exists x. by rewrite lookup_replicate_2.
Qed.

Lemma lookup_repeat_each y m i j :
  i < m → (y ≫= λ v, replicate m v) !! (j * m + i) = y !! j.
Proof.
  intros Hi. revert j. induction y as [|v y IH]; intros j.
  - by rewrite lookup_nil.
  - rewrite bind_cons. destruct j as [|j].
    + rewrite lookup_app_l by (rewrite length_replicate; lia).
      simpl. by apply lookup_replicate_2.
    + rewrite lookup_app_r by (rewrite length_replicate; lia).
      rewrite length_replicate.
      replace (S j * m + i - m) with (j * m + i) by lia. apply IH.
Qed.

Lemma length_tile x n : length (mjoin (replicate n x)) = n * length x.
Proof. induction n; csimpl; [done|]. rewrite length_app. lia. Qed.

Lemma length_repeat_each y m :
  length (y ≫= λ v, replicate m v) = length y * m.
Proof.
  induction y as [|v y IH]; [done|].
  rewrite bind_cons, length_app, length_replicate. simpl. lia.
Qed.

Lemma length_flat_grid x y : length (flat_grid x y) = length y * length x.
Proof.
  unfold flat_grid.
  rewrite length_zip, length_tile, length_repeat_each. lia.
Qed.

Lemma lookup_flat_grid x y i j xi yj :
  x !! i = Some xi → y !! j = Some yj →
  flat_grid x y !! (j * length x + i) = Some (xi, yj).
Proof.
  intros Hx Hy. apply lookup_zip_Some.
  pose proof (lookup_lt_Some _ _ _ Hx). pose proof (lookup_lt_Some _ _ _ Hy).
  by rewrite lookup_tile, lookup_repeat_each.
Qed.

(** [get_sk_contour] never raises on a domain of two bounds, and its four
    results are these. *)
Lemma get_sk_contour_eq model a b resolution :
  let c := linspace a b resolution in
  get_sk_contour model [a; b] resolution =
    Ok (mk_ndarray (resolution, resolution) (score model <$> flat_grid c c),
        c, c, flat_grid c c).
Proof.
  intros c. unfold get_sk_contour, getitem. simpl.
  unfold stack, flatten. simpl. fold c.
  assert (length c = resolution) as Hc by apply length_linspace.
  case_decide as Hlen.
  - simpl. unfold reshape, decision_function. simpl.
    fold (flat_grid c c). case_decide as Hz.
    + simpl. by rewrite Hc.
    + exfalso. apply Hz. by rewrite length_fmap, length_flat_grid.
  - exfalso. apply Hlen.
    by rewrite length_tile, length_repeat_each.
Qed.

End NumpyFacts.


(** ** The results of [get_sk_contour] *)

Section Contour.
Context {T : Type} `{Scalar T}.

(** C1.  For every fitted model, domain [[a, b]] and resolution [r], the
    score surface has shape [r × r], and at grid position [(i, j)], that
    is x index [i] and y index [j], it holds the model's score of the
    point [(x_i, y_j)].  With y outer and x inner the position is row
    [j], column [i] of the surface and index [j * r + i] of the flat
    grid. *)
Theorem score_surface_at_grid_position
    (model : fitted_model T) (a b : T) (r i j : nat) :
  i < r → j < r →
  ∃ z_grid x_coords y_coords grid,
    get_sk_contour model [a; b] r = Ok (z_grid, x_coords, y_coords, grid) ∧
    shape z_grid = (r, r) ∧
    length (data z_grid) = r * r ∧
    ∃ x_i y_j,
      x_coords !! i = Some x_i ∧ y_coords !! j = Some y_j ∧
      grid !! (j * r + i) = Some (x_i, y_j) ∧
      item z_grid j i = Some (score model (x_i, y_j)).
Proof.
  intros Hi Hj. set (c := linspace a b r).
  assert (length c = r) as Hc by apply length_linspace.
  destruct (lookup_lt_is_Some_2 c i) as [x_i Hx]; [lia|].
  destruct (lookup_lt_is_Some_2 c j) as [y_j Hy]; [lia|].
  pose proof (lookup_flat_grid c c i j x_i y_j Hx Hy) as Hg.
  rewrite Hc in Hg.
  eexists _, _, _, _. split; [apply get_sk_contour_eq|]. fold c.
  split; [done|]. split.
  { simpl. by rewrite length_fmap, length_flat_grid, Hc. }
  exists x_i, y_j. repeat split; try done.
  unfold item. simpl. rewrite decide_True by done.
  by rewrite list_lookup_fmap, Hg.
Qed.

(** C8.  For every domain pair and resolution the region is a square:
    the x and the y coordinates are the same sequence, the one
    [linspace] derives from the pair, the flat grid has as many points as
    the product of the two lengths, and the score surface has the
    dimensions of the grid. *)
Theorem evaluation_region_is_square
    (model : fitted_model T) (a b : T) (r : nat) :
  ∃ z_grid x_coords y_coords grid,
    get_sk_contour model [a; b] r = Ok (z_grid, x_coords, y_coords, grid) ∧
    x_coords = linspace a b r ∧
    y_coords = linspace a b r ∧
    x_coords = y_coords ∧
    length grid = length x_coords * length y_coords ∧
    shape z_grid = (length y_coords, length x_coords) ∧
    length (data z_grid) = length grid.
Proof.
  eexists _, _, _, _. split; [apply get_sk_contour_eq|].
  rewrite length_flat_grid, !length_linspace. simpl.
  by rewrite length_fmap, length_flat_grid, !length_linspace.
Qed.

End Contour.

Lemma score_surface_at_grid_position_witness :
  1 < 3 ∧ 2 < 3 ∧
  ∃ z_grid x_coords y_coords grid,
    get_sk_contour {| score := λ p : Q * Q, (p.1 + 10 * p.2)%Q |}
      [0%Q; 2%Q] 3 = Ok (z_grid, x_coords, y_coords, grid) ∧
    shape z_grid = (3, 3) ∧
    length (data z_grid) = 3 * 3 ∧
    ∃ x_i y_j,
      x_coords !! 1 = Some x_i ∧ y_coords !! 2 = Some y_j ∧
      grid !! (2 * 3 + 1) = Some (x_i, y_j) ∧
      item z_grid 2 1 = Some (x_i + 10 * y_j)%Q.
Proof.
  split; [lia|]. split; [lia|].
  apply (score_surface_at_grid_position
           {| score := λ p : Q * Q, (p.1 + 10 * p.2)%Q |} 0%Q 2%Q 3 1 2); lia.
Defined.

(** ** The coordinates in binary64 *)

Section Binary64.
Implicit Types (a b s z : float) (r : nat).

Lemma SFcompare_refl (x : spec_float) :
  x ≠ S754_nan → SFcompare x x = Some Eq.
Proof.
  destruct x as [sg| sg | | sg m e]; try done; intros _; simpl.
  - by destruct sg.
  - rewrite Z.compare_refl, Pos.compare_cont_refl. by destruct sg.
Qed.

(** Zero times a finite number is a zero. *)
Lemma f64_zero_mul s :
  finite s = true → ∃ sg, Prim2SF (0 * s) = S754_zero sg.
Proof.
  unfold finite. intros Hs. rewrite FloatAxioms.mul_spec.
  change (Prim2SF 0) with (S754_zero false).
  destruct (Prim2SF s); try done; by eexists.
Qed.

(** A zero added to a number gives a number equal to it. *)
Lemma f64_zero_add z sg a :
  Prim2SF z = S754_zero sg → Prim2SF a ≠ S754_nan →
  (z + a =? a)%float = true.
Proof.
  intros Hz Ha. rewrite FloatAxioms.eqb_spec, FloatAxioms.add_spec, Hz.
  unfold SFeqb.
  destruct (Prim2SF a) as [sa| sa | | sa m e] eqn:Hpa; try done.
  - unfold SF64add. simpl. by destruct sg, sa.
  - unfold SF64add. simpl. by destruct sa.
  - unfold SF64add. cbn [SFadd]. by rewrite SFcompare_refl.
Qed.




Lemma f64_sub_finite_not_nan a b :
  finite (b - a) = true → Prim2SF a ≠ S754_nan.
Proof.
  unfold finite. rewrite FloatAxioms.sub_spec. intros Hf Ha.
  rewrite Ha in Hf. unfold SF64sub in Hf. by destruct (Prim2SF b).
Qed.


(** With one sample, and bounds whose difference is finite, the sample is
    [0 * (b - a) + a], which equals [a]. *)
Lemma f64_linspace_one a b :
  finite (b - a) = true →
  ∃ u, linspace a b 1 = [u] ∧ (u =? a)%float = true.
Proof.
  intros Hd. eexists. split; [reflexivity|].
  destruct (f64_zero_mul _ Hd) as [sg Hzero].
  apply (f64_zero_add _ sg); [done|]. by eapply f64_sub_finite_not_nan.
Qed.



End Binary64.



(** The worked instance of the next section in binary64: over [[0, 2]] at
    resolution 3 the arithmetic is exact. *)
Lemma three_by_three_coordinates_binary64 :
  linspace 0%float 2%float 3 = [0%float; 1%float; 2%float].
Proof. reflexivity. Qed.

(** ** Rationals *)

Section ExactCoordinates.
Implicit Types (a b : Q) (r i : nat).

Lemma Q_of_nat_pos r : 0 < r → (0 < inject_Z (Z.of_nat r))%Q.
Proof.
  intros Hr. change 0%Q with (inject_Z 0). rewrite <- Zlt_Qlt. lia.
Qed.

End ExactCoordinates.

(** A worked instance: the 3 × 3 grid over [[0, 2]]. *)
Section WorkedGrid.

Lemma NoDup_three_by_three :
  NoDup (cprod [0%Q; 1%Q; 2%Q] [0%Q; 1%Q; 2%Q]).
Proof.
  vm_compute. repeat (apply NoDup_cons; split);
    [rewrite ?elem_of_cons, elem_of_nil; intuition discriminate..|].
  apply NoDup_nil_2.
Qed.

(** C6.  With resolution 3 and domain [[0, 2]], [get_sk_contour] returns
    the x coordinates [[0, 1, 2]], the y coordinates [[0, 1, 2]] and a
    flat grid of exactly 9 points, which are the points of the Cartesian
    product of the coordinates, each once. *)
Theorem three_by_three_grid (model : fitted_model Q) :
  ∃ z_grid grid,
    get_sk_contour model [0%Q; 2%Q] 3 =
      Ok (z_grid, [0%Q; 1%Q; 2%Q], [0%Q; 1%Q; 2%Q], grid) ∧
    grid = [(0, 0); (1, 0); (2, 0);
            (0, 1); (1, 1); (2, 1);
            (0, 2); (1, 2); (2, 2)]%Q ∧
    length grid = 9 ∧
    grid ≡ₚ cprod [0%Q; 1%Q; 2%Q] [0%Q; 1%Q; 2%Q].
Proof.
  eexists _, _. split; [by vm_compute|]. split; [done|]. split; [done|].
  apply NoDup_Permutation.
  - repeat (apply NoDup_cons; split);
      [rewrite ?elem_of_cons, elem_of_nil; intuition discriminate..|].
    apply NoDup_nil_2.
  - apply NoDup_three_by_three.
  - intros [u v]. vm_compute cprod.
    rewrite !elem_of_cons, !elem_of_nil. tauto.
Qed.

(** The rows of the surface follow y and its columns follow x: for a
    score that tells the two coordinates apart, row 1, column 2 holds the
    score of [(x_2, y_1)] and row 2, column 1 that of [(x_1, y_2)]. *)
Lemma rows_follow_y :
  ∃ z_grid x_coords y_coords grid,
    get_sk_contour {| score := λ p : Q * Q, (p.1 + 10 * p.2)%Q |}
      [0%Q; 2%Q] 3 = Ok (z_grid, x_coords, y_coords, grid) ∧
    item z_grid 1 2 = Some 12%Q ∧ item z_grid 2 1 = Some 21%Q.
Proof. eexists _, _, _, _. split; [by vm_compute|]. by vm_compute. Qed.

End WorkedGrid.

(** ** The model factory *)

Section Factory.

(** C2, as the code has it.  The identifiers the factory knows are "if"
    and "ocsvm": for "if" it returns an Isolation Forest whose
    contamination is exactly 0.05, and for "ocsvm" a One-Class SVM with
    [nu = 0.05], the "rbf" kernel and [gamma = 'scale']. *)
Theorem get_sk_model_known :
  get_sk_model "if" = Ok (IsolationForest 0.05) ∧
  get_sk_model "ocsvm" = Ok (OneClassSVM 0.05 "rbf" "scale").
Proof. split; reflexivity. Qed.

(** C2, as the claim words it: the identifiers "isolation-forest" and
    "one-class-svm" do not yield the two models; both calls raise. *)
Lemma get_sk_model_long_names :
  ¬ (get_sk_model "isolation-forest" = Ok (IsolationForest 0.05) ∧
     get_sk_model "one-class-svm" = Ok (OneClassSVM 0.05 "rbf" "scale")).
Proof.
  assert (get_sk_model "isolation-forest"
          = Raise (UnboundLocalError "sk_model")) as Hif by reflexivity.
  intros [Hok _]. rewrite Hif in Hok. discriminate Hok.
Qed.

(** C5.  For every identifier other than the two the factory knows, no
    branch assigns the local [sk_model]: no model is built and the
    [return] raises instead of yielding a result. *)
Theorem get_sk_model_unknown (sk_model_name : string) :
  sk_model_name ≠ "if" → sk_model_name ≠ "ocsvm" →
  get_sk_model sk_model_name = Raise (UnboundLocalError "sk_model").
Proof.
  intros Hif Hsvm. unfold get_sk_model.
  apply String.eqb_neq in Hif. apply String.eqb_neq in Hsvm.
  by rewrite Hif, Hsvm.
Qed.

End Factory.

Lemma get_sk_model_unknown_witness :
  "bogus" ≠ "if" ∧ "bogus" ≠ "ocsvm" ∧
  get_sk_model "bogus" = Raise (UnboundLocalError "sk_model").
Proof.
  split; [discriminate|]. split; [discriminate|].
  apply (get_sk_model_unknown "bogus"); discriminate.
Defined.

(** ** The training routine *)

Section Training.
Context `{Ambient}.

Lemma rebinding_is_idempotent (globals : gmap string train_fn) :
  run_cell4 (run_cell3 globals) = run_cell3 globals ∧
  run_cell4 (run_cell3 globals) = run_cell4 globals.
Proof.
  unfold run_cell3, run_cell4. by rewrite insert_insert_eq.
Qed.

(** C9.  The two definitions of [train_plot_sk_model] are the same
    function: on every figure, column, dataset name, model name, domain
    and state of the world they return the same result and leave the
    same state.  Running both cells binds what either cell alone binds,
    so the last cell of the notebook behaves the same with one of them
    removed. *)
Theorem train_plot_sk_model_redefinition :
  (∀ fig col ds_name sk_model_name domain w,
     Cell3.train_plot_sk_model fig col ds_name sk_model_name domain w =
     Cell4.train_plot_sk_model fig col ds_name sk_model_name domain w) ∧
  (∀ globals w,
     run_cell5 (run_cell4 (run_cell3 globals)) w =
       run_cell5 (run_cell3 globals) w ∧
     run_cell5 (run_cell4 (run_cell3 globals)) w =
       run_cell5 (run_cell4 globals) w).
Proof.
  split; [reflexivity|]. intros globals w.
  destruct (rebinding_is_idempotent globals) as [-> _]. split; [done|].
  unfold run_cell3, run_cell4. reflexivity.
Qed.

(** The dataset asked of the loader is the one the configuration names:
    when loading it fails, the routine fails the same way, whatever
    [ds_name] is. *)
Lemma load_failure_propagates
    (fig : Figure) (col : nat) (ds_name sk_model_name : string)
    (domain : option (list Q)) (w w' : World) (e : exn) :
  load_toy_2d (Config.dataset_name config) (Config.num_pts config)
    (Config.noise config) w = (Raise e, w') →
  Cell3.train_plot_sk_model fig col ds_name sk_model_name domain w
    = (Raise e, w').
Proof.
  intros Hload. unfold Cell3.train_plot_sk_model, mbind, py_bind.
  by rewrite Hload.
Qed.

(** C10.  [train_plot_sk_model] does not depend on [ds_name]: for any
    two values of it, with the other arguments, the configuration and
    the state of the world the same, the whole computation, and with it
    the dataset that is loaded, is the same; the dataset is the one named
    by [config.dataset_name]. *)
Theorem train_plot_sk_model_ignores_ds_name
    (fig : Figure) (col : nat) (ds_name1 ds_name2 sk_model_name : string)
    (domain : option (list Q)) (w : World) :
  Cell3.train_plot_sk_model fig col ds_name1 sk_model_name domain w =
    Cell3.train_plot_sk_model fig col ds_name2 sk_model_name domain w ∧
  Cell4.train_plot_sk_model fig col ds_name1 sk_model_name domain w =
    Cell4.train_plot_sk_model fig col ds_name2 sk_model_name domain w.
Proof. split; reflexivity. Qed.

End Training.

(** ** The experiment driver *)

Section DriverFacts.
Implicit Types (outcome : list event → command → Z).
Implicit Types (environ : gmap string string) (out : list event).

Lemma emits_ret : emits (mret ()) [].
Proof.
  intros s Hs. exists s. by rewrite app_nil_r.
Qed.

Lemma emits_then (m k : sh unit) out1 out2 :
  emits m out1 → emits k out2 → emits (m;; k) (out1 ++ out2).
Proof.
  intros Hm Hk s Hs.
  destruct (Hm s Hs) as (s1 & Hrun1 & Hs1 & Htr1).
  destruct (Hk s1 Hs1) as (s2 & Hrun2 & Hs2 & Htr2).
  exists s2. unfold mbind, sh_bind. rewrite Hrun1, Hrun2.
  by rewrite Htr2, Htr1, (assoc_L (++)).
Qed.

Lemma emits_echo line : emits (echo line) [Echo line].
Proof. intros s Hs. by eexists. Qed.

(** With [errexit] off the status of a command is recorded and nothing
    else comes of it. *)
Lemma emits_exec outcome environ assignments argv :
  emits (exec outcome environ assignments argv)
    [Exec {| cmd_env := foldl (λ m kv, <[kv.1 := kv.2]> m)
                          environ assignments;
             cmd_argv := argv |}].
Proof.
  intros s Hs. unfold exec. rewrite Hs. simpl. by eexists.
Qed.

Lemma emits_for_in words (body : string → sh unit)
    (out : string → list event) :
  (∀ v, emits (body v) (out v)) →
  emits (for_in words body) (words ≫= out).
Proof.
  intros Hbody. induction words as [|v words IH].
  - apply emits_ret.
  - rewrite bind_cons. simpl. by apply emits_then.
Qed.

Lemma run_mnist_emits outcome environ script repeats tag :
  emits (run_mnist outcome environ script repeats tag)
    (script_trace environ script repeats tag).
Proof.
  unfold run_mnist, script_trace.
  apply (emits_then _ _ [_]); [apply emits_exec|].
  apply emits_for_in. intros c.
  apply (emits_then _ _ [_]); [apply emits_echo|].
  apply emits_for_in. intros i.
  apply (emits_then _ _ [_] [_]); [apply emits_echo|apply emits_exec].
Qed.

Lemma run_mnist_trace outcome environ script repeats tag :
  (run_mnist outcome environ script repeats tag start).1 = Some () ∧
  sh_trace (run_mnist outcome environ script repeats tag start).2
    = script_trace environ script repeats tag.
Proof.
  destruct (run_mnist_emits outcome environ script repeats tag start)
    as (s & Hrun & _ & Htr); [done|].
  rewrite Hrun. split; [done|]. apply Htr.
Qed.

Lemma invocations_app (tr1 tr2 : list event) :
  invocations (tr1 ++ tr2) = invocations tr1 ++ invocations tr2.
Proof. apply omap_app. Qed.

(** Among the events of the script, the runs of the training script are
    one per pair of the loops, each a function of the class alone. *)
Lemma invocations_script_trace environ (script : string) repeats
    (tag : string) :
  invocations (script_trace environ script repeats tag) =
    (λ p, training_command environ p.1 tag) <$> loop_pairs repeats.
Proof.
  unfold script_trace, loop_pairs.
  change (invocations (Exec ?c :: ?tr)) with (invocations tr).
  generalize (seq_words 1 repeats). intros ws.
  induction classes as [|c cs IHc]; [done|].
  rewrite !bind_cons, invocations_app, fmap_app, IHc. f_equal.
  change (invocations (Echo ?l :: ?tr)) with (invocations tr).
  clear IHc. induction ws as [|i ws IHi]; [done|].
  rewrite !bind_cons, invocations_app, fmap_app, IHi. done.
Qed.

Lemma training_command_env environ (c tag : string) :
  let env := cmd_env (training_command environ c tag) in
  env !! "IN_CLASS" = Some c ∧
  env !! "WANDB_GROUP" = Some ("mnist" +:+ c +:+ "_" +:+ tag) ∧
  env !! "DATASET_NAME" = Some "mnist" ∧
  env !! "PLOTLY_RENDERER" = Some "png".
Proof.
  simpl. repeat split.
  - rewrite lookup_insert_ne by done. apply lookup_insert_eq.
  - apply lookup_insert_eq.
  - do 2 (rewrite lookup_insert_ne by done). apply lookup_insert_eq.
  - do 3 (rewrite lookup_insert_ne by done). apply lookup_insert_eq.
Qed.

Lemma loop_pairs_2 :
  loop_pairs 2 =
    [("0", "1"); ("0", "2"); ("1", "1"); ("1", "2");
     ("2", "1"); ("2", "2"); ("3", "1"); ("3", "2");
     ("5", "1"); ("5", "2"); ("6", "1"); ("6", "2");
     ("7", "1"); ("7", "2"); ("9", "1"); ("9", "2")].
Proof. by vm_compute. Qed.

(** C4, as the code has it.  With repeat count 2 the driver runs the
    training script exactly 16 times, once for each of the 16 distinct
    (class, repeat index) pairs and in their order, and the variables each
    run sets carry the class of its pair: [IN_CLASS] is the class and the
    run group is [mnist<class>_<tag>]. *)
Theorem sixteen_invocations
    outcome environ (script tag : string) :
  let run := run_mnist outcome environ script 2 tag start in
  let cmds := invocations (sh_trace run.2) in
  length cmds = 16 ∧
  length (loop_pairs 2) = 16 ∧
  NoDup (loop_pairs 2) ∧
  Forall2 (λ cmd p,
             cmd_env cmd !! "IN_CLASS" = Some p.1 ∧
             cmd_env cmd !! "WANDB_GROUP"
               = Some ("mnist" +:+ p.1 +:+ "_" +:+ tag))
          cmds (loop_pairs 2).
Proof.
  intros run cmds.
  assert (cmds = (λ p, training_command environ p.1 tag) <$> loop_pairs 2)
    as Hcmds.
  { subst cmds run.
    rewrite (proj2 (run_mnist_trace outcome environ script 2 tag)).
    apply invocations_script_trace. }
  rewrite Hcmds. split; [by rewrite length_fmap, loop_pairs_2|].
  split; [by rewrite loop_pairs_2|].
  split; [rewrite loop_pairs_2; apply (bool_decide_unpack _); by vm_compute|].
  apply Forall2_fmap_l, Forall_Forall2_diag, Forall_forall.
  intros p _. split; apply training_command_env.
Qed.

(** C4, as the claim words it: were the pairs reflected in the
    environments, some function would read each pair off the environment
    of its run; there is none, since the two repeats of class 0 run in
    the same environment. *)
Lemma repeats_share_their_environment :
  ¬ env_reflects_pairs
      (invocations
         (sh_trace
            (run_mnist (λ _ _, 0%Z) ∅ "./run_mnist.sh" 2 "xp1" start).2))
      (loop_pairs 2).
Proof.
  rewrite (proj2 (run_mnist_trace _ _ _ _ _)).
  rewrite invocations_script_trace, loop_pairs_2.
  intros [decode Hdecode].
  injection Hdecode as H1 H2 _. simpl in H1, H2. congruence.
Qed.

(** Had the script turned [errexit] on, the first failing command would
    have ended it. *)
Lemma errexit_would_abort :
  run_mnist (λ _ _, 1%Z) ∅ "./run_mnist.sh" 2 "xp1"
    {| sh_trace := []; sh_status := 0; sh_errexit := true |}
  = (None, {| sh_trace := [Exec (nbconvert_command ∅)]; sh_status := 1;
              sh_errexit := true |}).
Proof. reflexivity. Qed.

(** C7.  Whatever the exit statuses of the commands, the script runs to
    its end and issues the same commands in the same order as when every
    command succeeds: a failed training run aborts nothing. *)
Theorem failure_does_not_abort_the_loop
    outcome environ (script : string) (repeats : Z) (tag : string) :
  let run := run_mnist outcome environ script repeats tag start in
  let clean := run_mnist (λ _ _, 0%Z) environ script repeats tag start in
  run.1 = Some () ∧
  sh_trace run.2 = script_trace environ script repeats tag ∧
  sh_trace run.2 = sh_trace clean.2 ∧
  invocations (sh_trace run.2) = invocations (sh_trace clean.2).
Proof.
  intros run clean. subst run clean.
  destruct (run_mnist_trace outcome environ script repeats tag)
    as [Hend Htr].
  destruct (run_mnist_trace (λ _ _, 0%Z) environ script repeats tag)
    as [_ Htr0].
  by rewrite Hend, Htr, Htr0.
Qed.

End DriverFacts.

(** * Further properties of the code *)

(** ** [get_sk_contour]: the domain argument and the grid *)

Section ContourDomain.
Context {T : Type} `{Scalar T}.
Implicit Types (x y : list T) (a b : T) (model : fitted_model T).

Lemma elem_of_flat_grid x y (p : T * T) :
  p ∈ flat_grid x y ↔ p.1 ∈ x ∧ p.2 ∈ y.
Proof.
  destruct p as [u v]. simpl. split.
  - intros Hp. unfold flat_grid in Hp. split.
    + apply elem_of_zip_l in Hp. apply list_elem_of_join in Hp.
      destruct Hp as (l & Hu & Hl). by apply elem_of_replicate_inv in Hl as ->.
    + apply elem_of_zip_r in Hp. apply list_elem_of_bind in Hp.
      destruct Hp as (w & Hv & Hw). by apply elem_of_replicate_inv in Hv as ->.
  - intros [Hu Hv].
    apply list_elem_of_lookup in Hu as [i Hi].
    apply list_elem_of_lookup in Hv as [j Hj].
    apply list_elem_of_lookup. exists (j * length x + i).
    by apply lookup_flat_grid.
Qed.

(** X1.  A domain with fewer than two entries makes [get_sk_contour] raise
    [IndexError], whatever the model and the resolution: [domain[0]] and
    [domain[1]] are read before anything else is done. *)
Theorem get_sk_contour_short_domain model (domain : list T) (r : nat) :
  length domain < 2 →
  get_sk_contour model domain r = Raise IndexError.
Proof.
  intros Hlen. destruct domain as [|a [|b rest]]; [done|done|].
  simpl in Hlen. lia.
Qed.

(** X2.  At every resolution of at least 1 the flat grid holds exactly the
    points of the Cartesian product of the returned coordinates: a point is
    in the grid if and only if its first component is an x coordinate and
    its second a y coordinate. *)
Theorem grid_is_the_product model a b (r : nat) :
  (1 ≤ r)%nat →
  ∃ z_grid x_coords y_coords grid,
    get_sk_contour model [a; b] r = Ok (z_grid, x_coords, y_coords, grid) ∧
    ∀ p, p ∈ grid ↔ p.1 ∈ x_coords ∧ p.2 ∈ y_coords.
Proof.
  intros _. eexists _, _, _, _. split; [apply get_sk_contour_eq|].
  intros p. apply elem_of_flat_grid.
Qed.

End ContourDomain.

Lemma get_sk_contour_short_domain_witness :
  length [3%Q] < 2 ∧
  get_sk_contour {| score := λ p : Q * Q, p.1 |} [3%Q] 300 = Raise IndexError.
Proof.
  split; [simpl; lia|].
  apply (get_sk_contour_short_domain {| score := λ p : Q * Q, p.1 |} [3%Q] 300).
  simpl; lia.
Defined.

Lemma grid_is_the_product_witness :
  (1 ≤ 3)%nat ∧
  ∃ z_grid x_coords y_coords grid,
    get_sk_contour {| score := λ p : Q * Q, p.1 |} [0%Q; 2%Q] 3
      = Ok (z_grid, x_coords, y_coords, grid) ∧
    ∀ p, p ∈ grid ↔ p.1 ∈ x_coords ∧ p.2 ∈ y_coords.
Proof.
  split; [lia|].
  apply (grid_is_the_product {| score := λ p : Q * Q, p.1 |} 0%Q 2%Q 3). lia.
Defined.

(** ** [np.linspace] on rationals *)

Section ExactSpacing.
Implicit Types (a b : Q) (r i : nat) (model : fitted_model Q).

(** Every sample, the last one included, is [a + i * (b - a) / (r - 1)],
    whether the step is zero or not. *)
Lemma Q_linspace_formula a b r i :
  (2 ≤ r)%nat → i < r →
  ∃ v, linspace a b r !! i = Some v ∧
       (v == a + inject_Z (Z.of_nat i)
                 * ((b - a) / inject_Z (Z.of_nat (r - 1))))%Q.
Proof.
  intros Hr Hi.
  pose proof (Q_of_nat_pos (r - 1) ltac:(lia)) as HD.
  destruct (decide (i = r - 1)) as [->|Hne].
  - exists b. split; [apply linspace_last; lia|].
    field. intros Hz. rewrite Hz in HD. by apply Qlt_irrefl in HD.
  - unfold linspace.
    rewrite (decide_True (P := 1 < r)) by lia.
    rewrite (decide_True (P := 0 < r - 1)) by lia.
    destruct (is_zero _) eqn:Hzero.
    + rewrite !length_fmap, length_arange.
      rewrite list_lookup_insert_ne by lia.
      unfold arange. rewrite !list_lookup_fmap, lookup_seq_lt by lia.
      simpl. eexists; split; [done|].
      rewrite !Qred_correct. field.
      intros Hz. rewrite Hz in HD. by apply Qlt_irrefl in HD.
    + rewrite !length_fmap, length_arange.
      rewrite list_lookup_insert_ne by lia.
      unfold arange. rewrite !list_lookup_fmap, lookup_seq_lt by lia.
      simpl. eexists; split; [done|].
      rewrite !Qred_correct. ring.
Qed.

Lemma Q_linspace_one a b : ∃ u, linspace a b 1 = [u] ∧ (u == a)%Q.
Proof.
  eexists. split; [reflexivity|]. simpl. rewrite !Qred_correct. ring.
Qed.

End ExactSpacing.

Section ExactRegion.
Implicit Types (a b : Q) (r i : nat) (model : fitted_model Q).

Lemma Q_linspace_within a b r v :
  (a <= b)%Q → v ∈ linspace a b r → (a <= v <= b)%Q.
Proof.
  intros Hab Hv. apply list_elem_of_lookup in Hv as [i Hi].
  pose proof (lookup_lt_Some _ _ _ Hi) as Hlt.
  rewrite length_linspace in Hlt.
  destruct (decide (r = 1)) as [->|Hr].
  - destruct (Q_linspace_one a b) as (u & Hone & Hu).
    rewrite Hone in Hi. destruct i; [|done]. injection Hi as <-.
    rewrite Hu. split; [apply Qle_refl|done].
  - destruct (Q_linspace_formula a b r i ltac:(lia) Hlt) as (v' & Hv' & Heq).
    rewrite Hi in Hv'. injection Hv' as <-.
    pose proof (Q_of_nat_pos (r - 1) ltac:(lia)) as HD.
    set (D := inject_Z (Z.of_nat (r - 1))) in *.
    set (step := ((b - a) / D)%Q) in *.
    assert (0 <= step)%Q as Hstep.
    { subst step. apply Qle_shift_div_l; [done|]. lra. }
    assert (D * step == b - a)%Q as Hspan.
    { subst step. field. intros Hz. rewrite Hz in HD.
      by apply Qlt_irrefl in HD. }
    assert (0 <= inject_Z (Z.of_nat i))%Q as Hi0.
    { change 0%Q with (inject_Z 0). rewrite <- Zle_Qle. lia. }
    assert (inject_Z (Z.of_nat i) <= D)%Q as HiD.
    { subst D. rewrite <- Zle_Qle. lia. }
    pose proof (Qmult_le_0_compat _ _ Hi0 Hstep) as Hlo.
    pose proof (Qmult_le_compat_r _ _ step HiD Hstep) as Hhi.
    rewrite Heq. split; lra.
Qed.

End ExactRegion.

Section ExactEdges.
Implicit Types (a b : Q) (r i : nat) (model : fitted_model Q).

(** X7.  A domain of zero width is accepted as well: with [a = b] and a
    resolution of at least 1 every coordinate equals [a], so all the points
    of the grid are the one point [(a, a)]. *)
Theorem equal_bounds_collapse model a b r :
  (a == b)%Q → (1 ≤ r)%nat →
  ∃ z_grid x_coords y_coords grid,
    get_sk_contour model [a; b] r = Ok (z_grid, x_coords, y_coords, grid) ∧
    length grid = r * r ∧
    ∀ p, p ∈ grid → (p.1 == a)%Q ∧ (p.2 == a)%Q.
Proof.
  intros Hab _. eexists _, _, _, _. split; [apply get_sk_contour_eq|].
  split; [by rewrite length_flat_grid, length_linspace|].
  assert (a <= b)%Q as Hle by (rewrite Hab; apply Qle_refl).
  intros p [Hx Hy]%elem_of_flat_grid.
  apply (Q_linspace_within a b r _ Hle) in Hx, Hy.
  rewrite <- Hab in Hx, Hy. split; lra.
Qed.

End ExactEdges.

Lemma equal_bounds_collapse_witness :
  (1 == 1)%Q ∧ (1 ≤ 3)%nat ∧
  ∃ z_grid x_coords y_coords grid,
    get_sk_contour {| score := λ p : Q * Q, p.1 |} [1%Q; 1%Q] 3
      = Ok (z_grid, x_coords, y_coords, grid) ∧
    length grid = 3 * 3 ∧
    ∀ p, p ∈ grid → (p.1 == 1)%Q ∧ (p.2 == 1)%Q.
Proof.
  split; [reflexivity|]. split; [lia|].
  apply (equal_bounds_collapse {| score := λ p : Q * Q, p.1 |} 1 1 3);
    [reflexivity|lia].
Defined.

(** ** The factory, the plot and the training routine *)

Section Plotting.
Context `{Ambient}.

(** X9.  Whatever identifier it is given, a model that [get_sk_model]
    returns is one of the two it knows, built with the outlier fraction
    0.05: an Isolation Forest for "if", a One-Class SVM with the "rbf"
    kernel and [gamma = 'scale'] for "ocsvm". *)
Theorem get_sk_model_returns (sk_model_name : string) (m : sk_model) :
  get_sk_model sk_model_name = Ok m →
  (sk_model_name = "if" ∧ m = IsolationForest 0.05) ∨
  (sk_model_name = "ocsvm" ∧ m = OneClassSVM 0.05 "rbf" "scale").
Proof.
  unfold get_sk_model.
  destruct (String.eqb sk_model_name "if") eqn:Hif.
  - apply String.eqb_eq in Hif. intros [= <-]. by left.
  - destruct (String.eqb sk_model_name "ocsvm") eqn:Hsvm; [|done].
    apply String.eqb_eq in Hsvm. intros [= <-]. by right.
Qed.

(** What [plot_sk_contour] adds to a figure: the contour of the surface in
    20 bands, then the samples as black markers of size 1.5, both in row 1
    of column [col]. *)
Lemma plot_sk_contour_eq (model : fitted_model Q) (X : list (Q * Q))
    (y : Labels) (fig : Figure) (col : nat) (domain : option (list Q))
    (a b : Q) :
  default (Config.domain config) domain = [a; b] →
  (1 ≤ fig_rows fig)%nat → (1 ≤ col ≤ fig_cols fig)%nat →
  ∃ z_grid x_coords y_coords grid fig',
    get_sk_contour model [a; b] 300
      = Ok (z_grid, x_coords, y_coords, grid) ∧
    plot_sk_contour model X y fig col domain = Ok fig' ∧
    fig_data fig' =
      fig_data fig ++
        [(Contour z_grid x_coords y_coords 20, 1, col);
         (Scatter (X.*1) (X.*2) "markers"
                  {| size := 1.5; color := "black" |}, 1, col)] ∧
    fig_rows fig' = fig_rows fig ∧ fig_cols fig' = fig_cols fig ∧
    fig_layout fig' = fig_layout fig.
Proof.
  intros Hdom Hrows Hcol. unfold plot_sk_contour.
  replace (match domain with Some d => d | None => Config.domain config end)
    with [a; b] by (by destruct domain).
  rewrite get_sk_contour_eq.
  generalize (linspace a b 300). intros c.
  eexists _, _, _, _, _. split; [done|].
  unfold mbind, result_bind, add_trace.
  rewrite decide_True by lia.
  cbn [fig_rows fig_cols fig_data fig_layout fig_shared_yaxes].
  rewrite decide_True by lia.
  split; [done|]. cbn [fig_rows fig_cols fig_data fig_layout].
  by rewrite <- (assoc_L (++)).
Qed.

(** X10.  When the domain in force, the argument or else
    [config.domain], has two bounds and [col] is a column of a figure with
    at least one row, [plot_sk_contour] returns the figure with exactly two
    traces added after those it had: the contour of the 300 × 300 surface
    in 20 bands, then all the samples as black markers, both in row 1 of
    column [col].  The labels [y] play no part, and the grid and the layout
    are left as they were. *)
Theorem plot_sk_contour_adds_two_traces (model : fitted_model Q)
    (X : list (Q * Q)) (y : Labels) (fig : Figure) (col : nat)
    (domain : option (list Q)) (a b : Q) :
  default (Config.domain config) domain = [a; b] →
  (1 ≤ fig_rows fig)%nat → (1 ≤ col ≤ fig_cols fig)%nat →
  ∃ z_grid x_coords y_coords grid fig',
    get_sk_contour model [a; b] 300
      = Ok (z_grid, x_coords, y_coords, grid) ∧
    plot_sk_contour model X y fig col domain = Ok fig' ∧
    fig_data fig' =
      fig_data fig ++
        [(Contour z_grid x_coords y_coords 20, 1, col);
         (Scatter (X.*1) (X.*2) "markers"
                  {| size := 1.5; color := "black" |}, 1, col)] ∧
    fig_rows fig' = fig_rows fig ∧ fig_cols fig' = fig_cols fig ∧
    fig_layout fig' = fig_layout fig.
Proof. apply plot_sk_contour_eq. Qed.

(** The routine up to the plot, when loading, processing, the factory and
    the fit succeed. *)
Lemma train_plot_sk_model_run (fig : Figure) (col : nat)
    (ds_name sk_model_name : string) (domain : option (list Q))
    (w w1 w2 w3 : World) (X0 : RawX) (y0 : RawY) (X : list (Q * Q))
    (y : Labels) (m : sk_model) (fm : fitted_model Q) :
  load_toy_2d (Config.dataset_name config) (Config.num_pts config)
    (Config.noise config) w = (Ok (X0, y0), w1) →
  default_process X0 y0 w1 = (Ok (X, y), w2) →
  get_sk_model sk_model_name = Ok m →
  fit m X y w2 = (Ok fm, w3) →
  Cell4.train_plot_sk_model fig col ds_name sk_model_name domain w
    = (plot_sk_contour fm X y fig col domain, w3).
Proof.
  intros Hload Hproc Hmodel Hfit.
  unfold Cell4.train_plot_sk_model, mbind, py_bind, lift.
  rewrite Hload. lazy beta iota. rewrite Hproc. lazy beta iota.
  rewrite Hmodel. lazy beta iota. rewrite Hfit. done.
Qed.

(** X11.  An identifier the factory does not know is found out late: the
    dataset is loaded and processed first, and only then does
    [train_plot_sk_model] raise [UnboundLocalError]; nothing is fitted or
    plotted, and the state is the one the processing left. *)
Theorem train_plot_sk_model_unknown_model (fig : Figure) (col : nat)
    (ds_name sk_model_name : string) (domain : option (list Q))
    (w w1 w2 : World) (X0 : RawX) (y0 : RawY) (X : list (Q * Q))
    (y : Labels) :
  sk_model_name ≠ "if" → sk_model_name ≠ "ocsvm" →
  load_toy_2d (Config.dataset_name config) (Config.num_pts config)
    (Config.noise config) w = (Ok (X0, y0), w1) →
  default_process X0 y0 w1 = (Ok (X, y), w2) →
  Cell4.train_plot_sk_model fig col ds_name sk_model_name domain w
    = (Raise (UnboundLocalError "sk_model"), w2).
Proof.
  intros Hif Hsvm Hload Hproc.
  assert (get_sk_model sk_model_name = Raise (UnboundLocalError "sk_model"))
    as Hmodel.
  { unfold get_sk_model.
    apply String.eqb_neq in Hif. apply String.eqb_neq in Hsvm.
    by rewrite Hif, Hsvm. }
  unfold Cell4.train_plot_sk_model, mbind, py_bind, lift.
  rewrite Hload. lazy beta iota. rewrite Hproc. lazy beta iota.
  by rewrite Hmodel.
Qed.

(** X12.  When the dataset loads and is processed, the identifier is one
    the factory knows, the fit succeeds, the domain in force has two bounds
    and [col] is a column of the figure, [train_plot_sk_model] ends in the
    state the fit left, with the figure it was given and two more traces:
    the contour of the fitted model over the domain and the processed
    samples. *)
Theorem train_plot_sk_model_plots (fig : Figure) (col : nat)
    (ds_name sk_model_name : string) (domain : option (list Q))
    (w w1 w2 w3 : World) (X0 : RawX) (y0 : RawY) (X : list (Q * Q))
    (y : Labels) (m : sk_model) (fm : fitted_model Q) (a b : Q) :
  load_toy_2d (Config.dataset_name config) (Config.num_pts config)
    (Config.noise config) w = (Ok (X0, y0), w1) →
  default_process X0 y0 w1 = (Ok (X, y), w2) →
  get_sk_model sk_model_name = Ok m →
  fit m X y w2 = (Ok fm, w3) →
  default (Config.domain config) domain = [a; b] →
  (1 ≤ fig_rows fig)%nat → (1 ≤ col ≤ fig_cols fig)%nat →
  ∃ z_grid x_coords y_coords grid fig',
    get_sk_contour fm [a; b] 300 = Ok (z_grid, x_coords, y_coords, grid) ∧
    Cell4.train_plot_sk_model fig col ds_name sk_model_name domain w
      = (Ok fig', w3) ∧
    fig_data fig' =
      fig_data fig ++
        [(Contour z_grid x_coords y_coords 20, 1, col);
         (Scatter (X.*1) (X.*2) "markers"
                  {| size := 1.5; color := "black" |}, 1, col)].
Proof.
  intros Hload Hproc Hmodel Hfit Hdom Hrows Hcol.
  destruct (plot_sk_contour_eq fm X y fig col domain a b Hdom Hrows Hcol)
    as (z & xs & ys & g & fig' & Hcontour & Hplot & Hdata & _).
  exists z, xs, ys, g, fig'. split; [done|]. split; [|done].
  rewrite (train_plot_sk_model_run _ _ _ _ _ _ _ _ _ _ _ _ _ _ _
             Hload Hproc Hmodel Hfit).
  by rewrite Hplot.
Qed.

(** X13.  The last cell of the notebook, run after the cells that define
    the routine, can fail only in the loader, the processing or the fit.
    When these succeed it fits a One-Class SVM with [nu = 0.05], the "rbf"
    kernel and [gamma = 'scale'] and returns a figure of one cell holding
    two traces, the contour of the fitted model over [[-3, 3]], not over
    [config.domain], and the samples. *)
Theorem last_cell_plots (globals : gmap string train_fn)
    (w w1 w2 w3 : World) (X0 : RawX) (y0 : RawY) (X : list (Q * Q))
    (y : Labels) (fm : fitted_model Q) :
  load_toy_2d (Config.dataset_name config) (Config.num_pts config)
    (Config.noise config) w = (Ok (X0, y0), w1) →
  default_process X0 y0 w1 = (Ok (X, y), w2) →
  fit (OneClassSVM 0.05 "rbf" "scale") X y w2 = (Ok fm, w3) →
  ∃ z_grid x_coords y_coords grid fig,
    get_sk_contour fm [(-3)%Q; 3%Q] 300
      = Ok (z_grid, x_coords, y_coords, grid) ∧
    run_cell5 (run_cell4 (run_cell3 globals)) w = (Ok fig, w3) ∧
    fig_rows fig = 1 ∧ fig_cols fig = 1 ∧
    fig_data fig =
      [(Contour z_grid x_coords y_coords 20, 1, 1);
       (Scatter (X.*1) (X.*2) "markers"
                {| size := 1.5; color := "black" |}, 1, 1)].
Proof.
  intros Hload Hproc Hfit.
  destruct (plot_sk_contour_eq fm X y (make_subplots 1 1 true) 1
              (Some [(-3)%Q; 3%Q]) (-3) 3)
    as (z & xs & ys & g & fig' & Hcontour & Hplot & Hdata & Hr & Hc & Hl);
    [done|simpl; lia|simpl; lia|].
  exists z, xs, ys, g. eexists. split; [done|].
  unfold run_cell5, run_cell4, run_cell3, mbind, py_bind, lift.
  rewrite lookup_insert_eq. lazy beta iota.
  rewrite (train_plot_sk_model_run _ _ _ "ocsvm" _ _ _ _ _ _ _ _ _ _ _
             Hload Hproc eq_refl Hfit).
  rewrite Hplot. lazy beta iota. split; [reflexivity|].
  unfold update_yaxes, update_layout.
  cbn [fig_rows fig_cols fig_data fig_layout].
  rewrite Hr, Hc, Hdata. repeat split; reflexivity.
Qed.

End Plotting.

Lemma get_sk_model_returns_witness :
  get_sk_model "ocsvm" = Ok (OneClassSVM 0.05 "rbf" "scale") ∧
  (("ocsvm" = "if" ∧ OneClassSVM 0.05 "rbf" "scale" = IsolationForest 0.05) ∨
   ("ocsvm" = "ocsvm" ∧
    OneClassSVM 0.05 "rbf" "scale" = OneClassSVM 0.05 "rbf" "scale")).
Proof.
  split; [reflexivity|].
  apply (get_sk_model_returns "ocsvm" (OneClassSVM 0.05 "rbf" "scale")).
  reflexivity.
Defined.

Lemma plot_sk_contour_adds_two_traces_witness :
  let fm : fitted_model Q := {| score := λ p : Q * Q, p.1 |} in
  let X := [(0, 0); (1, 1)]%Q in
  let fig := make_subplots 1 1 true in
  default (Config.domain (@config sample_ambient)) None = [(-1)%Q; 1%Q] ∧
  (1 ≤ fig_rows fig)%nat ∧ (1 ≤ 1 ≤ fig_cols fig)%nat ∧
  ∃ z_grid x_coords y_coords grid fig',
    get_sk_contour fm [(-1)%Q; 1%Q] 300
      = Ok (z_grid, x_coords, y_coords, grid) ∧
    @plot_sk_contour sample_ambient fm X [0; 1] fig 1 None = Ok fig' ∧
    fig_data fig' =
      fig_data fig ++
        [(Contour z_grid x_coords y_coords 20, 1, 1);
         (Scatter (X.*1) (X.*2) "markers"
                  {| size := 1.5; color := "black" |}, 1, 1)] ∧
    fig_rows fig' = fig_rows fig ∧ fig_cols fig' = fig_cols fig ∧
    fig_layout fig' = fig_layout fig.
Proof.
  intros fm X fig. split; [reflexivity|].
  split; [simpl; lia|]. split; [simpl; lia|].
  apply (@plot_sk_contour_adds_two_traces sample_ambient fm X [0; 1] fig 1
           None (-1) 1); [reflexivity|simpl; lia|simpl; lia].
Defined.

Lemma train_plot_sk_model_unknown_model_witness :
  let X := [(0, 0); (1, 1)]%Q in
  "bogus" ≠ "if" ∧ "bogus" ≠ "ocsvm" ∧
  @load_toy_2d sample_ambient "moons" 2 0 0%nat = (Ok (X, [0; 1]), 1%nat) ∧
  @default_process sample_ambient X [0; 1] 1%nat = (Ok (X, [0; 1]), 1%nat) ∧
  @Cell4.train_plot_sk_model sample_ambient (make_subplots 1 1 true) 1
    "moons" "bogus" None 0%nat
    = (Raise (UnboundLocalError "sk_model"), 1%nat).
Proof.
  intros X. split; [discriminate|]. split; [discriminate|].
  split; [reflexivity|]. split; [reflexivity|].
  apply (@train_plot_sk_model_unknown_model sample_ambient
           (make_subplots 1 1 true) 1 "moons" "bogus" None
           0%nat 1%nat 1%nat X [0; 1] X [0; 1]);
    [discriminate|discriminate|reflexivity|reflexivity].
Defined.

Lemma train_plot_sk_model_plots_witness :
  let X := [(0, 0); (1, 1)]%Q in
  let fm : fitted_model Q := {| score := λ p : Q * Q, p.1 |} in
  let fig := make_subplots 1 1 true in
  @load_toy_2d sample_ambient "moons" 2 0 0%nat = (Ok (X, [0; 1]), 1%nat) ∧
  @default_process sample_ambient X [0; 1] 1%nat = (Ok (X, [0; 1]), 1%nat) ∧
  get_sk_model "if" = Ok (IsolationForest 0.05) ∧
  @fit sample_ambient (IsolationForest 0.05) X [0; 1] 1%nat
    = (Ok fm, 2%nat) ∧
  default (Config.domain (@config sample_ambient)) None = [(-1)%Q; 1%Q] ∧
  (1 ≤ fig_rows fig)%nat ∧ (1 ≤ 1 ≤ fig_cols fig)%nat ∧
  ∃ z_grid x_coords y_coords grid fig',
    get_sk_contour fm [(-1)%Q; 1%Q] 300
      = Ok (z_grid, x_coords, y_coords, grid) ∧
    @Cell4.train_plot_sk_model sample_ambient fig 1 "moons" "if" None 0%nat
      = (Ok fig', 2%nat) ∧
    fig_data fig' =
      fig_data fig ++
        [(Contour z_grid x_coords y_coords 20, 1, 1);
         (Scatter (X.*1) (X.*2) "markers"
                  {| size := 1.5; color := "black" |}, 1, 1)].
Proof.
  intros X fm fig. do 5 (split; [reflexivity|]).
  split; [simpl; lia|]. split; [simpl; lia|].
  apply (@train_plot_sk_model_plots sample_ambient fig 1 "moons" "if" None
           0%nat 1%nat 1%nat 2%nat X [0; 1] X [0; 1]
           (IsolationForest 0.05) fm (-1) 1);
    [reflexivity|reflexivity|reflexivity|reflexivity|reflexivity
    |simpl; lia|simpl; lia].
Defined.

Lemma last_cell_plots_witness :
  let X := [(0, 0); (1, 1)]%Q in
  let fm : fitted_model Q := {| score := λ p : Q * Q, p.1 |} in
  @load_toy_2d sample_ambient "moons" 2 0 0%nat = (Ok (X, [0; 1]), 1%nat) ∧
  @default_process sample_ambient X [0; 1] 1%nat = (Ok (X, [0; 1]), 1%nat) ∧
  @fit sample_ambient (OneClassSVM 0.05 "rbf" "scale") X [0; 1] 1%nat
    = (Ok fm, 2%nat) ∧
  ∃ z_grid x_coords y_coords grid fig,
    get_sk_contour fm [(-3)%Q; 3%Q] 300
      = Ok (z_grid, x_coords, y_coords, grid) ∧
    @run_cell5 sample_ambient (run_cell4 (run_cell3 ∅)) 0%nat
      = (Ok fig, 2%nat) ∧
    fig_rows fig = 1 ∧ fig_cols fig = 1 ∧
    fig_data fig =
      [(Contour z_grid x_coords y_coords 20, 1, 1);
       (Scatter (X.*1) (X.*2) "markers"
                {| size := 1.5; color := "black" |}, 1, 1)].
Proof.
  intros X fm. do 3 (split; [reflexivity|]).
  apply (@last_cell_plots sample_ambient ∅ 0%nat 1%nat 1%nat 2%nat
           X [0; 1] X [0; 1] fm); reflexivity.
Defined.

(** ** The driver for every repeat count *)

Section DriverRuns.
Implicit Types (outcome : list event → command → Z).
Implicit Types (environ : gmap string string) (script tag : string).

Lemma length_seq_words (last : Z) :
  length (seq_words 1 last) = Z.to_nat last.
Proof.
  unfold seq_words. rewrite length_fmap, length_seqZ. f_equal. lia.
Qed.

Lemma length_loop_pairs (repeats : Z) :
  length (loop_pairs repeats) = 8 * Z.to_nat repeats.
Proof.
  unfold loop_pairs, classes. rewrite <- length_seq_words.
  generalize (seq_words 1 repeats). intros ws.
  assert (∀ c : string, length (ws ≫= λ i, [(c, i)]) = length ws) as Hc.
  { intros c. induction ws as [|i ws IH]; [done|].
    rewrite bind_cons, length_app, IH. done. }
  rewrite !bind_cons, !length_app, !Hc. simpl. lia.
Qed.

Lemma elem_of_loop_pairs (repeats : Z) (p : string * string) :
  p ∈ loop_pairs repeats → p.1 ∈ classes.
Proof.
  unfold loop_pairs. intros Hp.
  apply list_elem_of_bind in Hp as (c & Hp & Hc).
  apply list_elem_of_bind in Hp as (i & Hp & _).
  apply list_elem_of_singleton in Hp as ->. done.
Qed.

(** X14.  For every repeat count [n] the driver runs the training script
    [8 * max n 0] times, whatever the exit statuses. *)
Theorem number_of_invocations
    outcome environ script (repeats : Z) tag :
  length (invocations
            (sh_trace (run_mnist outcome environ script repeats tag start).2))
    = 8 * Z.to_nat repeats.
Proof.
  rewrite (proj2 (run_mnist_trace outcome environ script repeats tag)).
  by rewrite invocations_script_trace, length_fmap, length_loop_pairs.
Qed.

(** X15.  With a repeat count of zero or less the training script is never
    run: the driver converts the notebook, prints the line of each of the
    eight classes and ends. *)
Theorem no_repeats_no_training
    outcome environ script (repeats : Z) tag :
  (repeats ≤ 0)%Z →
  sh_trace (run_mnist outcome environ script repeats tag start).2
    = Exec (nbconvert_command environ) ::
      ((λ c, Echo ("Run experiments for class " +:+ c)) <$> classes) ∧
  invocations
    (sh_trace (run_mnist outcome environ script repeats tag start).2) = [].
Proof.
  intros Hn.
  rewrite (proj2 (run_mnist_trace outcome environ script repeats tag)).
  assert (seq_words 1 repeats = []) as Hws.
  { apply length_zero_iff_nil. rewrite length_seq_words. lia. }
  split.
  - unfold script_trace. by rewrite Hws.
  - rewrite invocations_script_trace. unfold loop_pairs. by rewrite Hws.
Qed.

(** X16.  Every run of the training script is for one of the classes 0, 1,
    2, 3, 5, 6, 7 and 9: for every repeat count, [IN_CLASS] is set to one
    of these, and never to 4 or 8. *)
Theorem classes_4_and_8_never_run
    outcome environ script (repeats : Z) tag :
  Forall (λ cmd, ∃ c, cmd_env cmd !! "IN_CLASS" = Some c ∧ c ∈ classes ∧
                      c ≠ "4" ∧ c ≠ "8")
    (invocations
       (sh_trace (run_mnist outcome environ script repeats tag start).2)).
Proof.
  apply Forall_forall. intros cmd.
  rewrite (proj2 (run_mnist_trace outcome environ script repeats tag)).
  rewrite invocations_script_trace.
  intros (p & -> & Hp%elem_of_loop_pairs)%list_elem_of_fmap.
  exists p.1. split; [apply training_command_env|]. split; [done|].
  split; intros Heq; rewrite Heq in Hp; revert Hp; unfold classes;
    rewrite !elem_of_cons, elem_of_nil; intuition discriminate.
Qed.

(** X17.  The dataset and the renderer are fixed by the driver: every run
    of the training script has [DATASET_NAME] set to "mnist" and
    [PLOTLY_RENDERER] set to "png", whatever the environment of the driver
    held for these two names. *)
Theorem dataset_and_renderer_are_fixed
    outcome environ script (repeats : Z) tag :
  Forall (λ cmd,
            cmd_env cmd !! "DATASET_NAME" = Some "mnist" ∧
            cmd_env cmd !! "PLOTLY_RENDERER" = Some "png")
    (invocations
       (sh_trace (run_mnist outcome environ script repeats tag start).2)).
Proof.
  apply Forall_forall. intros cmd.
  rewrite (proj2 (run_mnist_trace outcome environ script repeats tag)).
  rewrite invocations_script_trace.
  intros (p & -> & _)%list_elem_of_fmap.
  split; apply training_command_env.
Qed.

Lemma keeps_ret (I : shell → Prop) : keeps I (mret ()).
Proof. intros s Hs HI. by exists s. Qed.

Lemma keeps_then (I : shell → Prop) (m k : sh unit) :
  keeps I m → keeps I k → keeps I (m;; k).
Proof.
  intros Hm Hk s Hs HI.
  destruct (Hm s Hs HI) as (s1 & Hrun1 & Hs1 & HI1).
  destruct (Hk s1 Hs1 HI1) as (s2 & Hrun2 & Hs2 & HI2).
  exists s2. unfold mbind, sh_bind. by rewrite Hrun1, Hrun2.
Qed.

Lemma keeps_for_in (I : shell → Prop) words (body : string → sh unit) :
  (∀ v, keeps I (body v)) → keeps I (for_in words body).
Proof.
  intros Hbody. induction words as [|v words IH]; simpl.
  - apply keeps_ret.
  - by apply keeps_then.
Qed.

Lemma keeps_status_echo outcome line :
  keeps (status_reported outcome) (echo line).
Proof.
  intros s Hs _. eexists. split; [done|]. split; [done|].
  unfold status_reported. simpl. by rewrite last_snoc.
Qed.

Lemma keeps_status_exec outcome environ assignments argv :
  keeps (status_reported outcome) (exec outcome environ assignments argv).
Proof.
  intros s Hs _. unfold exec. rewrite Hs. simpl.
  eexists. split; [done|]. split; [done|].
  unfold status_reported. simpl. by rewrite last_snoc, removelast_last.
Qed.

Lemma run_mnist_keeps_status outcome environ script repeats tag :
  keeps (status_reported outcome)
    (run_mnist outcome environ script repeats tag).
Proof.
  unfold run_mnist.
  apply keeps_then; [apply keeps_status_exec|].
  apply keeps_for_in. intros c.
  apply keeps_then; [apply keeps_status_echo|].
  apply keeps_for_in. intros i.
  apply keeps_then; [apply keeps_status_echo|apply keeps_status_exec].
Qed.

(** With at least one repeat the last thing the script does is the last
    run for class 9. *)
Lemma script_trace_ends_with_class_9 environ script (repeats : Z) tag :
  (1 ≤ repeats)%Z →
  ∃ before,
    script_trace environ script repeats tag
      = before ++ [Exec (training_command environ "9" tag)].
Proof.
  intros Hn. unfold script_trace, classes.
  destruct (seq_words 1 repeats) as [|w ws _] eqn:Hws using rev_ind.
  { apply (f_equal length) in Hws. rewrite length_seq_words in Hws.
    simpl in Hws. lia. }
  apply last_Some.
  change ["0"; "1"; "2"; "3"; "5"; "6"; "7"; "9"]
    with (["0"; "1"; "2"; "3"; "5"; "6"; "7"] ++ ["9"]).
  rewrite last_cons, bind_app, bind_singleton, last_app, last_cons.
  rewrite bind_app, bind_singleton, last_app. done.
Qed.

(** X18.  The status the script ends with is that of the last run of the
    training script alone, the last repeat for class 9: with at least one
    repeat, the failures of all the other runs leave no mark on it. *)
Theorem final_status_is_the_last_run
    outcome environ script (repeats : Z) tag :
  (1 ≤ repeats)%Z →
  let run := run_mnist outcome environ script repeats tag start in
  ∃ before,
    sh_trace run.2 = before ++ [Exec (training_command environ "9" tag)] ∧
    sh_status run.2 = outcome before (training_command environ "9" tag).
Proof.
  intros Hn run. subst run.
  destruct (script_trace_ends_with_class_9 environ script repeats tag Hn)
    as [before Hbefore].
  exists before.
  destruct (run_mnist_keeps_status outcome environ script repeats tag start)
    as (s & Hrun & _ & Hstatus); [done..|].
  pose proof (proj2 (run_mnist_trace outcome environ script repeats tag))
    as Htr.
  rewrite Hrun in Htr |- *. simpl in Htr |- *.
  unfold status_reported in Hstatus.
  rewrite Htr, Hbefore, last_snoc, removelast_last in Hstatus.
  by rewrite Htr, Hbefore.
Qed.

End DriverRuns.

Lemma no_repeats_no_training_witness :
  (0 ≤ 0)%Z ∧
  sh_trace (run_mnist (λ _ _, 1%Z) ∅ "./run_mnist.sh" 0 "xp1" start).2
    = Exec (nbconvert_command ∅) ::
      ((λ c, Echo ("Run experiments for class " +:+ c)) <$> classes) ∧
  invocations
    (sh_trace (run_mnist (λ _ _, 1%Z) ∅ "./run_mnist.sh" 0 "xp1" start).2)
    = [].
Proof.
  split; [lia|].
  apply (no_repeats_no_training (λ _ _, 1%Z) ∅ "./run_mnist.sh" 0 "xp1").
  lia.
Defined.

Lemma final_status_is_the_last_run_witness :
  (1 ≤ 2)%Z ∧
  let run := run_mnist (λ tr _, Z.of_nat (length tr)) ∅ "./run_mnist.sh" 2
               "xp1" start in
  ∃ before,
    sh_trace run.2 = before ++ [Exec (training_command ∅ "9" "xp1")] ∧
    sh_status run.2
      = (λ tr _, Z.of_nat (length tr)) before (training_command ∅ "9" "xp1").
Proof.
  split; [lia|].
  apply (final_status_is_the_last_run (λ tr _, Z.of_nat (length tr)) ∅
           "./run_mnist.sh" 2 "xp1").
  lia.
Defined.

(** ** Resolution 1 in binary64 *)

Section SingleSample.

(** X8.  At resolution 1 the upper bound is not sampled: in binary64, when
    the difference of the bounds is finite, both coordinate sequences hold
    one number, equal to the lower bound, the grid is the single point made
    of it and the surface is the 1 × 1 array of its score. *)
Theorem resolution_one_samples_the_lower_bound
    (model : fitted_model float) (a b : float) :
  finite (b - a) = true →
  ∃ z_grid u,
    get_sk_contour model [a; b] 1 = Ok (z_grid, [u], [u], [(u, u)]) ∧
    (u =? a)%float = true ∧
    shape z_grid = (1, 1) ∧ data z_grid = [score model (u, u)].
Proof.
  intros Hd. destruct (f64_linspace_one a b Hd) as (u & Hone & Hu).
  exists (mk_ndarray (1, 1) [score model (u, u)]), u.
  split; [|done]. rewrite get_sk_contour_eq, Hone. reflexivity.
Qed.

End SingleSample.

Lemma resolution_one_samples_the_lower_bound_witness :
  finite (3 - (-3)) = true ∧
  ∃ z_grid u,
    get_sk_contour {| score := λ p : float * float, p.1 |}
      [(-3)%float; 3%float] 1 = Ok (z_grid, [u], [u], [(u, u)]) ∧
    (u =? -3)%float = true ∧
    shape z_grid = (1, 1) ∧ data z_grid = [fst (u, u)].
Proof.
  split; [reflexivity|].
  apply (resolution_one_samples_the_lower_bound
           {| score := λ p : float * float, p.1 |} (-3)%float 3%float).
  reflexivity.
Defined.
